(** * odxtools: the PHYS-CONST parameter

    A shallow embedding of [odxtools/parameters/physicalconstantparameter.py]
    and the properties its specification states about resolution, encoding
    and decoding of a parameter whose physical value is fixed by the schema.

    Python objects are records, [None]-able attributes are [option]s, the
    [parameter_values] dictionary is a [gmap], raised exceptions and mutated
    objects are threaded through a small state-and-exception monad, and the
    [warnings] module is its filters, its registries of warnings already
    seen and the list of the warnings it has shown.

    Embedded are [_resolve_snrefs], the [physical_constant_value] property,
    [is_required], [is_optional], [get_coded_value_as_bytes] and
    [decode_from_pdu].  What these call in other modules of odxtools is
    gathered in the class [Collaborators]. *)

From Stdlib Require Import ZArith NArith Lia List Ascii String DecimalString.
From Stdlib.Strings Require Import Byte.
From stdpp Require Import base option strings gmap.
Import ListNotations.

Local Open Scope string_scope.
Local Open Scope Z_scope.

(** ** Exceptions and warnings *)

(** The exception classes that occur in the module or cross it. *)
Inductive ExceptionClass :=
  | TypeError
  | AttributeError
  | ValueError
  | OdxError
  | EncodeError
  | DecodeError.

#[global] Instance ExceptionClass_eq_dec : EqDecision ExceptionClass.
Proof. solve_decision. Defined.

(** A raised exception (or an emitted warning): its class and its message. *)
Record PyException := mkException {
  exc_class : ExceptionClass;
  exc_message : string
}.

Inductive Outcome (A : Type) :=
  | Returns (a : A)
  | Raises (e : PyException).
Arguments Returns {A} a.
Arguments Raises {A} e.

(** ** A state-and-exception monad

    [M S A] is a computation that may mutate an object of type [S] and either
    returns an [A] or raises.  As in Python, what was mutated before a raise
    stays mutated. *)
Definition M (S A : Type) : Type := S -> Outcome A * S.

Definition ret {S A} (a : A) : M S A := fun s => (Returns a, s).

Definition raise {S A} (e : PyException) : M S A := fun s => (Raises e, s).

Definition bind {S A B} (c : M S A) (k : A -> M S B) : M S B :=
  fun s =>
    match c s with
    | (Returns a, s') => k a s'
    | (Raises e, s') => (Raises e, s')
    end.

Definition get {S} : M S S := fun s => (Returns s, s).

Definition modify {S} (f : S -> S) : M S unit := fun s => (Returns tt, f s).

Definition lift {S A} (o : Outcome A) : M S A := fun s => (o, s).

Declare Scope py_scope.
Delimit Scope py_scope with py.
Notation "x <- c1 ;; c2" := (bind c1 (fun x => c2))
  (at level 100, c1 at next level, right associativity) : py_scope.
Notation "c1 ;; c2" := (bind c1 (fun _ => c2))
  (at level 100, right associativity) : py_scope.

(** ** Python built-ins used by the module *)

(** [str(n)] for an [int]. *)
Definition str_int (n : Z) : string := NilZero.string_of_int (Z.to_int n).

Definition hex_digit (n : N) : ascii :=
  match n with
  | 0 => "0" | 1 => "1" | 2 => "2" | 3 => "3" | 4 => "4" | 5 => "5"
  | 6 => "6" | 7 => "7" | 8 => "8" | 9 => "9" | 10 => "a" | 11 => "b"
  | 12 => "c" | 13 => "d" | 14 => "e" | _ => "f"
  end%N%char.

(** [bytes.hex()]: two lower-case hexadecimal digits per byte. *)
Fixpoint hex (b : list byte) : string :=
  match b with
  | [] => EmptyString
  | x :: b' =>
      String (hex_digit (Byte.to_N x / 16))
        (String (hex_digit (Byte.to_N x mod 16)) (hex b'))
  end.

(** *** The [warnings] module

    [warnings.warn] does not simply print: it looks the warning up in the
    registry of the calling module, searches the filters for the action
    to take, and then ignores the warning, raises it as an exception, or
    shows it, as [warnings.warn_explicit] of the standard library does. *)

Inductive Action :=
  | ActError
  | ActIgnore
  | ActAlways
  | ActDefault
  | ActModule
  | ActOnce.

(** An entry of [warnings.filters]: the action, the test of the message
    text (the compiled regular expression, [None] being the test that
    accepts all), the test [issubclass(category, cat)], the test of the
    module name, and the line number, 0 for any line. *)
Record WarningFilter := mkFilter {
  flt_action : Action;
  flt_message : string -> bool;
  flt_category : ExceptionClass -> bool;
  flt_module : string -> bool;
  flt_lineno : Z
}.

(** What [warnings.warn] reads and writes: the filters, the default
    action, the version of the filters and the version the registry of
    the calling module was filled under, the keys (text, category, line)
    of that registry, the keys (text, category) of [onceregistry], and the
    warnings handed to [showwarning] so far. *)
Record Warnings := mkWarnings {
  filters : list WarningFilter;
  defaultaction : Action;
  filters_version : Z;
  registry_version : Z;
  registry : list (string * ExceptionClass * Z);
  onceregistry : list (string * ExceptionClass);
  shown : list PyException
}.

(** The registry is emptied when the filters changed since it was
    filled. *)
Definition sync_registry (ws : Warnings) : Warnings :=
  if registry_version ws =? filters_version ws then ws
  else
    mkWarnings (filters ws) (defaultaction ws) (filters_version ws)
      (filters_version ws) [] (onceregistry ws) (shown ws).

(** [registry[key] = 1] *)
Definition add_key (key : string * ExceptionClass * Z) (ws : Warnings)
  : Warnings :=
  mkWarnings (filters ws) (defaultaction ws) (filters_version ws)
    (registry_version ws) (key :: registry ws) (onceregistry ws) (shown ws).

(** [onceregistry[oncekey] = 1] *)
Definition add_oncekey (oncekey : string * ExceptionClass) (ws : Warnings)
  : Warnings :=
  mkWarnings (filters ws) (defaultaction ws) (filters_version ws)
    (registry_version ws) (registry ws) (oncekey :: onceregistry ws)
    (shown ws).

(** [_showwarnmsg(msg)] *)
Definition show (w : PyException) (ws : Warnings) : Warnings :=
  mkWarnings (filters ws) (defaultaction ws) (filters_version ws)
    (registry_version ws) (registry ws) (onceregistry ws)
    (shown ws ++ [w])%list.

(** The search of the filters: the action of the first filter that
    matches, or the default action. *)
Definition action_for (ws : Warnings) (module : string) (lineno : Z)
    (text : string) (category : ExceptionClass) : Action :=
  match
    List.find
      (fun f =>
         flt_message f text && flt_category f category &&
         flt_module f module &&
         ((flt_lineno f =? 0) || (lineno =? flt_lineno f)))
      (filters ws)
  with
  | Some f => flt_action f
  | None => defaultaction ws
  end.

(** [warnings.warn(message, category)], called from line [lineno] of
    [module]. *)
Definition warn (module : string) (lineno : Z) (message : string)
    (category : ExceptionClass) : M Warnings unit :=
  fun ws =>
    let ws := sync_registry ws in
    let key := (message, category, lineno) in
    if bool_decide (key ∈ registry ws) then (Returns tt, ws)
    else
      match action_for ws module lineno message category with
      | ActIgnore => (Returns tt, ws)
      | ActError => (Raises (mkException category message), ws)
      | ActOnce =>
          let ws := add_key key ws in
          let oncekey := (message, category) in
          if bool_decide (oncekey ∈ onceregistry ws) then (Returns tt, ws)
          else
            (Returns tt,
             show (mkException category message) (add_oncekey oncekey ws))
      | ActAlways => (Returns tt, show (mkException category message) ws)
      | ActModule =>
          let ws := add_key key ws in
          let altkey := (message, category, 0) in
          if bool_decide (altkey ∈ registry ws) then (Returns tt, ws)
          else
            (Returns tt,
             show (mkException category message) (add_key altkey ws))
      | ActDefault =>
          (Returns tt, show (mkException category message) (add_key key ws))
      end.

(** What becomes of a warning: it is shown, it is dropped, or it is raised
    as an exception. *)
Inductive Disposition :=
  | Shown
  | Suppressed
  | Raised.

Definition disposition (ws : Warnings) (module : string) (lineno : Z)
    (text : string) (category : ExceptionClass) : Disposition :=
  let ws := sync_registry ws in
  let key := (text, category, lineno) in
  if bool_decide (key ∈ registry ws) then Suppressed
  else
    match action_for ws module lineno text category with
    | ActIgnore => Suppressed
    | ActError => Raised
    | ActOnce =>
        if bool_decide ((text, category) ∈ onceregistry ws) then Suppressed
        else Shown
    | ActAlways => Shown
    | ActModule =>
        if bool_decide ((text, category, 0) ∈ key :: registry ws)
        then Suppressed
        else Shown
    | ActDefault => Shown
    end.

(** The warnings module of a fresh interpreter that shows a warning the
    first time it occurs at a place: no filter but the default action. *)
Definition fresh_warnings : Warnings :=
  mkWarnings [] ActDefault 0 0 [] [] [].

(** Modelled from the spec: [exceptions.odxraise] is not among the sources;
    section 4.1 says that resolution fails with the error, so the call raises
    an [OdxError] carrying the message. *)
Definition odxraise {S} (message : string) : M S unit :=
  raise (mkException OdxError message).

(** Modelled from the spec: [exceptions.odxrequire] is not among the sources;
    it hands back the object it is given and fails when that object is [None]
    (section 3: using an unresolved reference is an error). *)
Definition odxrequire {S A} (obj : option A) (message : string) : M S A :=
  match obj with
  | Some a => ret a
  | None => raise (mkException OdxError message)
  end.

(** ** Data model *)

(** The attributes of a [PhysicalConstantParameter] that its methods touch:
    the fields it inherits ([short_name], the positions, the two forms of
    the reference to its DOP), the DOP itself as [self.dop] gives it
    ([None] until the reference is resolved), its own
    [physical_constant_value_raw], and [_physical_constant_value].  That
    last attribute does not exist before [_resolve_snrefs] has run, which
    is [None] here. *)
Record PhysicalConstantParameter (Value Dop : Type) := mkParameter {
  short_name : string;
  byte_position : option Z;
  bit_position : option Z;
  dop_ref : option string;
  dop_snref : option string;
  dop : option Dop;
  physical_constant_value_raw : string;
  _physical_constant_value : option Value
}.
Arguments mkParameter {Value Dop}.
Arguments short_name {Value Dop}.
Arguments byte_position {Value Dop}.
Arguments bit_position {Value Dop}.
Arguments dop_ref {Value Dop}.
Arguments dop_snref {Value Dop}.
Arguments dop {Value Dop}.
Arguments physical_constant_value_raw {Value Dop}.
Arguments _physical_constant_value {Value Dop}.

(** [self._physical_constant_value = v] *)
Definition set_physical_constant_value {Value Dop} (v : Value)
    (self : PhysicalConstantParameter Value Dop)
  : PhysicalConstantParameter Value Dop :=
  mkParameter (short_name self) (byte_position self) (bit_position self)
    (dop_ref self) (dop_snref self) (dop self)
    (physical_constant_value_raw self) (Some v).

(** Modelled from the spec: the class [EncodeState] is not among the sources;
    section 3 gives it the buffer assembled so far and the mapping from
    field name to the value the caller supplied, which the code reads as
    [encode_state.parameter_values]. *)
Record EncodeState (Value : Type) := mkEncodeState {
  buffer : list byte;
  parameter_values : gmap string Value
}.
Arguments mkEncodeState {Value}.
Arguments buffer {Value}.
Arguments parameter_values {Value}.

Definition with_parameter_values {Value} (pv : gmap string Value)
    (st : EncodeState Value) : EncodeState Value :=
  mkEncodeState (buffer st) pv.

(** Modelled from the spec: the class [DecodeState] is not among the sources;
    section 3 gives it the bytes of the message, which the code reads as
    [decode_state.coded_message], and the cursor, the byte position the next
    parameter starts at. *)
Record DecodeState := mkDecodeState {
  coded_message : list byte;
  cursor : Z
}.

(** ** Collaborators

    What the module takes from the rest of odxtools: the value type with
    Python's [!=] and [repr], the DOP classes with their conversion to bytes,
    the base data type with its [from_string], and the two base-class methods
    reached through [super()]. *)
Class Collaborators := {
  ParameterValue : Type;
  DataType : Type;
  DopBase : Type;
  DiagLayer : Type;
  (** [a != b] *)
  value_ne : ParameterValue -> ParameterValue -> bool;
  (** [repr(a)], the [!r] conversion of an f-string *)
  value_repr : ParameterValue -> string;
  (** [base_data_type.from_string(text)] *)
  from_string : DataType -> string -> Outcome ParameterValue;
  (** [isinstance(dop, DataObjectProperty)] *)
  isinstance_DataObjectProperty : DopBase -> bool;
  (** [dop.physical_type.base_data_type] *)
  physical_type_base_data_type : DopBase -> Outcome DataType;
  (** [dop.convert_physical_to_bytes(value, encode_state, bit_position)];
      the encode state is the object the computation runs on *)
  convert_physical_to_bytes :
    DopBase -> ParameterValue -> Z ->
    M (EncodeState ParameterValue) (list byte);
  (** [ParameterWithDOP._resolve_snrefs(self, diag_layer)] *)
  super_resolve_snrefs :
    DiagLayer -> M (PhysicalConstantParameter ParameterValue DopBase) unit;
  (** [ParameterWithDOP.decode_from_pdu(self, decode_state)] *)
  super_decode_from_pdu :
    PhysicalConstantParameter ParameterValue DopBase -> DecodeState ->
    M Warnings (ParameterValue * Z)
}.

(** ** The methods of [PhysicalConstantParameter] *)

Section PhysicalConstantParameter.

Context {odx : Collaborators}.

Local Abbreviation Self := (PhysicalConstantParameter ParameterValue DopBase).
Local Open Scope py_scope.

Definition parameter_type (self : Self) : string := "PHYS-CONST".

Definition _resolve_snrefs (diag_layer : DiagLayer) : M Self unit :=
  super_resolve_snrefs diag_layer ;;
  self <- get ;;
  dop <- odxrequire (dop self) EmptyString ;;
  (if negb (isinstance_DataObjectProperty dop)
   then odxraise "The type of PHYS-CONST parameters must be a simple DOP"
   else ret tt) ;;
  base_data_type <- lift (physical_type_base_data_type dop) ;;
  value <-
    lift (from_string base_data_type (physical_constant_value_raw self)) ;;
  modify (set_physical_constant_value value).

(** The [physical_constant_value] property: reading the attribute before it
    was assigned raises [AttributeError]. *)
Definition physical_constant_value {S} (self : Self) : M S ParameterValue :=
  match _physical_constant_value self with
  | Some v => ret v
  | None =>
      raise (mkException AttributeError
        ("'PhysicalConstantParameter' object has no attribute "
         +:+ "'_physical_constant_value'"))
  end.

Definition is_required (self : Self) : bool := false.

Definition is_optional (self : Self) : bool := false.

(** The message of the [TypeError] raised on a conflicting caller value. *)
Definition conflict_message (name : string) (constant : ParameterValue)
  : string :=
  "The parameter '" +:+ name +:+ "' is constant " +:+ value_repr constant
  +:+ " and thus can not be changed.".

(** [self.bit_position if self.bit_position is not None else 0] *)
Definition bit_position_int (self : Self) : Z :=
  match bit_position self with
  | Some b => b
  | None => 0
  end.

Definition get_coded_value_as_bytes (self : Self)
  : M (EncodeState ParameterValue) (list byte) :=
  dop <- odxrequire (dop self) "Reference to DOP is not resolved" ;;
  encode_state <- get ;;
  conflict <-
    match parameter_values encode_state !! short_name self with
    | Some given =>
        constant <- physical_constant_value self ;;
        ret (value_ne given constant)
    | None => ret false
    end ;;
  if conflict : bool then
    constant <- physical_constant_value self ;;
    raise (mkException TypeError (conflict_message (short_name self) constant))
  else
    let bit_position_int := bit_position_int self in
    constant <- physical_constant_value self ;;
    convert_physical_to_bytes dop constant bit_position_int.

(** The message of the warning emitted on a decoded value that is not the
    constant. *)
Definition mismatch_message (name : string) (constant phys_val : ParameterValue)
    (next_byte_position : Z) (message : list byte) : string :=
  "Physical constant parameter does not match! "
  +:+ "The parameter " +:+ name +:+ " expected physical value "
  +:+ value_repr constant +:+ " but got " +:+ value_repr phys_val +:+ " "
  +:+ "at byte position " +:+ str_int next_byte_position +:+ " "
  +:+ "in coded message " +:+ hex message +:+ ".".

(** The place of the call of [warnings.warn] in [decode_from_pdu]. *)
Definition warn_module : string :=
  "odxtools.parameters.physicalconstantparameter".

Definition warn_lineno : Z := 73.

Definition decode_from_pdu (self : Self) (decode_state : DecodeState)
  : M Warnings (ParameterValue * Z) :=
  decoded <- super_decode_from_pdu self decode_state ;;
  let '(phys_val, next_byte_position) := decoded in
  constant <- physical_constant_value self ;;
  (if value_ne phys_val constant
   then
     warn warn_module warn_lineno
          (mismatch_message (short_name self) constant phys_val
             next_byte_position (coded_message decode_state))
          DecodeError
   else ret tt) ;;
  ret (phys_val, next_byte_position).

End PhysicalConstantParameter.

(** ** The scenario of the specification

    Section 8 of the specification fixes one concrete setting: constant text
    "42", base type integer, a converter that maps an integer to one byte,
    bit position 0.  It is used to run the methods above on concrete input. *)
Module Scenario.

Inductive BaseDataType := A_UINT32.

(** The DOP classes of the scenario: the one-byte integer DOP, which is a
    [DataObjectProperty], and a structure, which is not. *)
Inductive ScenarioDop := UInt8Dop | StructureDop.

(** Modelled from the spec: [DataType.from_string] is not among the sources;
    section 6 has [parse(base_type, text)] yield the typed value or fail,
    here for decimal integer text. *)
Definition scenario_from_string (t : BaseDataType) (text : string)
  : Outcome Z :=
  match NilZero.int_of_string text with
  | Some d => Returns (Z.of_int d)
  | None =>
      Raises (mkException ValueError
        ("invalid literal for int() with base 10: '" +:+ text +:+ "'"))
  end.

(** Modelled from the spec: [DopBase.convert_physical_to_bytes] is not among
    the sources; section 8 has the converter map an integer to one byte at
    bit position 0.  A value that does not fit a byte is not encodable, and
    a structure does not encode an integer.  The encode state is left as it
    is. *)
Definition scenario_convert_physical_to_bytes (d : ScenarioDop) (v : Z)
    (bit_position : Z) : M (EncodeState Z) (list byte) :=
  match d with
  | UInt8Dop =>
      match Byte.of_N (Z.to_N v) with
      | Some b =>
          if (0 <=? v) && (bit_position =? 0) then ret [b]
          else raise (mkException EncodeError "value is not encodable")
      | None => raise (mkException EncodeError "value is not encodable")
      end
  | StructureDop => raise (mkException EncodeError "value is not encodable")
  end.

(** Modelled from the spec: [ParameterWithDOP._resolve_snrefs] is not among
    the sources; section 4.1 has [resolve_name_refs(scope)] look a reference
    held by name up in the enclosing scope and fail when it is not there. *)
Definition scenario_super_resolve_snrefs (diag_layer : gmap string ScenarioDop)
  : M (PhysicalConstantParameter Z ScenarioDop) unit :=
  (self <- get ;;
   match dop_snref self with
   | Some name =>
       d <- odxrequire (diag_layer !! name) EmptyString ;;
       modify (fun self =>
         mkParameter (short_name self) (byte_position self)
           (bit_position self) (dop_ref self) (dop_snref self) (Some d)
           (physical_constant_value_raw self) (_physical_constant_value self))
   | None => ret tt
   end)%py.

(** Modelled from the spec: [ParameterWithDOP.decode_from_pdu] is not among
    the sources; section 4.3 has the base operation read the raw value at
    the parameter's position, convert it and compute the next cursor
    position.  Here the value is the byte at [byte_position], or at the
    cursor when [byte_position] is absent. *)
Definition scenario_super_decode_from_pdu
    (self : PhysicalConstantParameter Z ScenarioDop) (ds : DecodeState)
  : M Warnings (Z * Z) :=
  let position :=
    match byte_position self with Some b => b | None => cursor ds end in
  if position <? 0 then raise (mkException DecodeError "message too short")
  else
    match nth_error (coded_message ds) (Z.to_nat position) with
    | Some b => ret (Z.of_N (Byte.to_N b), position + 1)
    | None => raise (mkException DecodeError "message too short")
    end.

#[export] Instance scenario : Collaborators := {|
  ParameterValue := Z;
  DataType := BaseDataType;
  DopBase := ScenarioDop;
  DiagLayer := gmap string ScenarioDop;
  value_ne := fun a b => negb (a =? b);
  value_repr := str_int;
  from_string := scenario_from_string;
  isinstance_DataObjectProperty :=
    fun d => match d with UInt8Dop => true | StructureDop => false end;
  physical_type_base_data_type :=
    fun d =>
      match d with
      | UInt8Dop => Returns A_UINT32
      | StructureDop =>
          Raises (mkException AttributeError
            "'Structure' object has no attribute 'physical_type'")
      end;
  convert_physical_to_bytes := scenario_convert_physical_to_bytes;
  super_resolve_snrefs := scenario_super_resolve_snrefs;
  super_decode_from_pdu := scenario_super_decode_from_pdu
|}.

(** The parameter "p" as the schema declares it, with its DOP referenced by
    the short name "dop", and the diagnostic layer that knows this DOP. *)
Definition p_unresolved : PhysicalConstantParameter Z ScenarioDop :=
  mkParameter "p" None (Some 0) None (Some "dop") None "42" None.

(** A parameter that refers to the structure instead. *)
Definition q_unresolved : PhysicalConstantParameter Z ScenarioDop :=
  mkParameter "q" None (Some 0) None (Some "struct") None "42" None.

Definition layer : gmap string ScenarioDop :=
  {[ "dop" := UInt8Dop; "struct" := StructureDop ]}.

(** The parameter "p" after resolution. *)
Definition p : PhysicalConstantParameter Z ScenarioDop :=
  mkParameter "p" None (Some 0) None (Some "dop") (Some UInt8Dop) "42"
    (Some 42).

(** An encode state whose caller supplied [given] for "p", and one whose
    caller supplied nothing. *)
Definition state_with (given : Z) : EncodeState Z :=
  mkEncodeState [] {[ "p" := given ]}.

Definition state_without : EncodeState Z := mkEncodeState [] ∅.

Definition message (b : byte) : DecodeState := mkDecodeState [b] 0.

(** The warnings module after [warnings.simplefilter("error", DecodeError)]:
    one filter, for every text, module and line, and a registry that is
    older than the filters. *)
Definition warnings_as_errors : Warnings :=
  mkWarnings
    [mkFilter ActError (fun _ => true)
       (fun category => bool_decide (category = DecodeError))
       (fun _ => true) 0]
    ActDefault 1 0 [] [] [].

(** The same after [warnings.simplefilter("ignore", DecodeError)]. *)
Definition warnings_ignored : Warnings :=
  mkWarnings
    [mkFilter ActIgnore (fun _ => true)
       (fun category => bool_decide (category = DecodeError))
       (fun _ => true) 0]
    ActDefault 1 0 [] [] [].



End Scenario.

(** ** Text that occurs inside a message *)

(** [Contains part whole]: [part] occurs in [whole] as a contiguous piece. *)
Definition Contains (part whole : string) : Prop :=
  exists before after, whole = before +:+ part +:+ after.

(** The same as a test, by trying every suffix of [whole]. *)
Fixpoint contains (part whole : string) : bool :=
  String.prefix part whole ||
  match whole with
  | EmptyString => false
  | String _ rest => contains part rest
  end.

(** ** Notions used to state the properties *)

Section Notions.

Context {odx : Collaborators}.

Local Abbreviation Self := (PhysicalConstantParameter ParameterValue DopBase).

(** A parameter is resolved once it holds its DOP and its constant. *)
Definition resolved (self : Self) (d : DopBase) (constant : ParameterValue)
  : Prop :=
  dop self = Some d /\ _physical_constant_value self = Some constant.

(** The error raised for a conflicting caller value names the parameter, the
    constant and the caller's value. *)
Definition conflict_error_names_given (self : Self)
    (st : EncodeState ParameterValue) : Prop :=
  forall d constant given,
    resolved self d constant ->
    parameter_values st !! short_name self = Some given ->
    value_ne given constant = true ->
    exists e,
      fst (get_coded_value_as_bytes self st) = Raises e /\
      exc_class e = TypeError /\
      Contains (short_name self) (exc_message e) /\
      Contains (value_repr constant) (exc_message e) /\
      Contains (value_repr given) (exc_message e).

(** What the bytes of a value depend on: not on the values the caller
    supplied. *)
Definition converter_ignores_parameter_values : Prop :=
  forall d v bit_position st (pv : gmap string ParameterValue),
    fst (convert_physical_to_bytes d v bit_position
           (with_parameter_values pv st)) =
    fst (convert_physical_to_bytes d v bit_position st).

(** What the conversion to bytes leaves alone in the encode state: the values
    the caller supplied. *)
Definition converter_keeps_parameter_values : Prop :=
  forall d v bit_position (st : EncodeState ParameterValue),
    parameter_values (snd (convert_physical_to_bytes d v bit_position st)) =
    parameter_values st.


(** The warning [decode_from_pdu] issues for a decoded value that is not
    the constant. *)
Definition mismatch_warning (self : Self) (ds : DecodeState)
    (constant phys_val : ParameterValue) (next_byte_position : Z)
  : PyException :=
  mkException DecodeError
    (mismatch_message (short_name self) constant phys_val
       next_byte_position (coded_message ds)).

(** What becomes of that warning under the warnings module [ws]. *)
Definition mismatch_disposition (ws : Warnings) (self : Self)
    (ds : DecodeState) (constant phys_val : ParameterValue)
    (next_byte_position : Z) : Disposition :=
  disposition ws warn_module warn_lineno
    (mismatch_message (short_name self) constant phys_val
       next_byte_position (coded_message ds))
    DecodeError.

(** Decoding a value that is not the constant does not fail, returns what
    the base decode returned and shows exactly one warning. *)
Definition decode_tolerant_as_claimed (self : Self) (ds : DecodeState)
    (ws : Warnings) : Prop :=
  forall constant phys_val next ws1,
    _physical_constant_value self = Some constant ->
    super_decode_from_pdu self ds ws = (Returns (phys_val, next), ws1) ->
    value_ne phys_val constant = true ->
    exists ws2 w,
      decode_from_pdu self ds ws = (Returns (phys_val, next), ws2) /\
      shown ws2 = (shown ws1 ++ [w])%list.



End Notions.

(** ** The remaining methods: [get_coded_value] and [__repr__] *)

(** [str.isspace] of one character, for the code points below 256 that a
    [string] here is made of: tab to carriage return, the four separators
    28 to 31, the space, NEL (133) and the no-break space (160). *)
Definition isspace (c : ascii) : bool :=
  match N_of_ascii c with
  | 9 | 10 | 11 | 12 | 13 | 28 | 29 | 30 | 31 | 32 | 133 | 160 => true
  | _ => false
  end%N.

(** [s.split()]: the maximal runs of characters that are not whitespace,
    in their order. *)
Fixpoint str_split (s : string) : list string :=
  match s with
  | EmptyString => []
  | String c rest =>
      if isspace c then str_split rest
      else
        match rest with
        | EmptyString => [String c EmptyString]
        | String c' _ =>
            if isspace c' then String c EmptyString :: str_split rest
            else
              match str_split rest with
              | w :: ws => String c w :: ws
              | [] => [String c EmptyString]
              end
        end
  end.

(** [' '.join(description.split())], as [__repr__] shows a description. *)
Definition joined_description (description : string) : string :=
  String.concat " " (str_split description).

(** A text is spaced by single blanks: no whitespace but the blank, no
    blank at either end, no two blanks in a row.  [after_blank] tells
    whether the previous character was a blank (or there was none). *)
Fixpoint single_spaced_from (after_blank : bool) (s : string) : bool :=
  match s with
  | EmptyString => negb after_blank
  | String c rest =>
      if isspace c
      then negb after_blank && Ascii.eqb c " " && single_spaced_from true rest
      else single_spaced_from false rest
  end.

Definition single_spaced (s : string) : bool :=
  match s with
  | EmptyString => true
  | String _ _ => single_spaced_from true s
  end.

(** The characters of a text that are not whitespace. *)
Definition letters (s : string) : list ascii :=
  List.filter (fun c => negb (isspace c)) (list_ascii_of_string s).

(** A word: a text that is not empty and holds no whitespace. *)
Definition is_word (w : string) : Prop :=
  w <> EmptyString /\
  Forall (fun c => isspace c = false) (list_ascii_of_string w).

(** The attributes of the parameter that only [__repr__] reads. *)
Record DescriptiveAttributes := mkDescriptive {
  long_name : option string;
  semantic : option string;
  description : option string
}.

Section Rendering.

Context {odx : Collaborators}.

Local Abbreviation Self := (PhysicalConstantParameter ParameterValue DopBase).
Local Open Scope py_scope.

(** The internal values of the DOPs and
    [dop.convert_physical_to_internal(value)], which [get_coded_value]
    calls and which is not among the sources. *)
Variable InternalValue : Type.
Variable convert_physical_to_internal :
  DopBase -> ParameterValue -> Outcome InternalValue.

(** [repr] of a [str] and of an [OdxLinkRef], the two built-in renderings
    [__repr__] calls. *)
Variable repr_str : string -> string.
Variable repr_OdxLinkRef : string -> string.

(** The attribute lookup [self.dop.convert_physical_to_internal] comes
    first and fails on [None]; the argument is read after it. *)
Definition get_coded_value {S} (self : Self) : M S InternalValue :=
  match dop self with
  | None =>
      raise (mkException AttributeError
        ("'NoneType' object has no attribute "
         +:+ "'convert_physical_to_internal'"))
  | Some d =>
      constant <- physical_constant_value self ;;
      lift (convert_physical_to_internal d constant)
  end.

Definition __repr__ {S} (self : Self) (more : DescriptiveAttributes)
  : M S string :=
  constant <- physical_constant_value self ;;
  let repr_str0 :=
    "PhysicalConstantParameter(short_name='" +:+ short_name self
    +:+ "', physical_constant_value=" +:+ value_repr constant in
  let repr_str1 :=
    match long_name more with
    | Some n => repr_str0 +:+ (", long_name='" +:+ n +:+ "'")
    | None => repr_str0
    end in
  let repr_str2 :=
    match byte_position self with
    | Some b => repr_str1 +:+ (", byte_position='" +:+ str_int b +:+ "'")
    | None => repr_str1
    end in
  let repr_str3 :=
    match bit_position self with
    | Some b => repr_str2 +:+ (", bit_position='" +:+ str_int b +:+ "'")
    | None => repr_str2
    end in
  let repr_str4 :=
    match semantic more with
    | Some sem => repr_str3 +:+ (", semantic='" +:+ sem +:+ "'")
    | None => repr_str3
    end in
  let repr_str5 :=
    match dop_ref self with
    | Some ref => repr_str4 +:+ (", dop_ref=" +:+ repr_OdxLinkRef ref)
    | None =>
        match dop_snref self with
        | Some snref => repr_str4 +:+ (", dop_snref=" +:+ repr_str snref)
        | None => repr_str4
        end
    end in
  let repr_str6 :=
    match description more with
    | Some text =>
        repr_str5
        +:+ (", description='" +:+ joined_description text +:+ "'")
    | None => repr_str5
    end in
  ret (repr_str6 +:+ ")").

End Rendering.

(** [repr] of a [str] that holds no quote, backslash or control character:
    the text between single quotes.  Used to run [__repr__]. *)
Definition quoted (s : string) : string := "'" +:+ s +:+ "'".

(** The inverse of [hex_digit] and of [hex]. *)
Definition unhex_digit (c : ascii) : option N :=
  let n := N_of_ascii c in
  if ((48 <=? n) && (n <=? 57))%N then Some (n - 48)%N
  else if ((97 <=? n) && (n <=? 102))%N then Some (n - 87)%N
  else None.

Fixpoint unhex (s : string) : option (list byte) :=
  match s with
  | EmptyString => Some []
  | String hi (String lo rest) =>
      match unhex_digit hi, unhex_digit lo, unhex rest with
      | Some h, Some l, Some bytes =>
          match Byte.of_N (16 * h + l) with
          | Some b => Some (b :: bytes)
          | None => None
          end
      | _, _, _ => None
      end
  | String _ EmptyString => None
  end.

(** ** Lemmas on text *)

Lemma append_cons (x : ascii) (a b : string) :
  String x a +:+ b = String x (a +:+ b).
Proof. reflexivity. Qed.

Lemma append_assoc3 (a b c : string) : (a +:+ b) +:+ c = a +:+ b +:+ c.
Proof.
  induction a as [|x a IH]; [reflexivity|].
  rewrite !append_cons. f_equal. exact IH.
Qed.

Lemma prefix_append (part after : string) :
  String.prefix part (part +:+ after) = true.
Proof.
  induction part as [|x part IH].
  - now destruct after.
  - rewrite append_cons. simpl.
    destruct (ascii_dec x x) as [_|Hx]; [exact IH | now elim Hx].
Qed.

Lemma Contains_head (part after : string) : Contains part (part +:+ after).
Proof. now exists EmptyString, after. Qed.

Lemma Contains_skip (part before whole : string) :
  Contains part whole -> Contains part (before +:+ whole).
Proof.
  intros (a & b & ->). exists (before +:+ a), b.
  now rewrite append_assoc3.
Qed.

Lemma contains_unfold (part whole : string) :
  contains part whole =
  String.prefix part whole ||
  match whole with
  | EmptyString => false
  | String _ rest => contains part rest
  end.
Proof. destruct whole; reflexivity. Qed.

(** The test finds every occurrence, so a negative test excludes them all. *)
Lemma Contains_contains (part whole : string) :
  Contains part whole -> contains part whole = true.
Proof.
  intros (a & b & ->). induction a as [|x a IH].
  - change (EmptyString +:+ part +:+ b) with (part +:+ b).
    rewrite contains_unfold, prefix_append. reflexivity.
  - rewrite append_cons. simpl. rewrite IH. apply orb_true_r.
Qed.

Ltac occurs := solve [apply Contains_head | apply Contains_skip; occurs].

(** Unfolds a method down to the state-passing functions it is made of. *)
Ltac run_method :=
  unfold get_coded_value_as_bytes, decode_from_pdu, _resolve_snrefs,
    physical_constant_value, odxrequire, odxraise, warn, resolved,
    bind, ret, raise, get, modify, lift in *.

(** ** Encoding *)

Section Encode.

Context {odx : Collaborators}.

Local Abbreviation Self := (PhysicalConstantParameter ParameterValue DopBase).

(** When no caller value conflicts, the method is the conversion of the
    constant by the DOP. *)
Lemma encode_no_conflict (self : Self) (st : EncodeState ParameterValue)
    (d : DopBase) (constant : ParameterValue) :
  resolved self d constant ->
  (forall given, parameter_values st !! short_name self = Some given ->
                 value_ne given constant = false) ->
  get_coded_value_as_bytes self st =
  convert_physical_to_bytes d constant (bit_position_int self) st.
Proof.
  intros [Hdop Hconst] Hgiven. run_method. rewrite Hdop, Hconst.
  destruct (parameter_values st !! short_name self) as [given|] eqn:E;
    [rewrite (Hgiven given eq_refl)|]; reflexivity.
Qed.

(** C1, as amended: a caller value for the parameter that differs from the
    constant makes [get_coded_value_as_bytes] raise a [TypeError] whose
    message names the parameter and the constant; the encode state is left
    as it was. *)
Theorem encode_conflict_raises (self : Self) (st : EncodeState ParameterValue)
    (d : DopBase) (constant given : ParameterValue) :
  resolved self d constant ->
  parameter_values st !! short_name self = Some given ->
  value_ne given constant = true ->
  get_coded_value_as_bytes self st =
    (Raises (mkException TypeError
               (conflict_message (short_name self) constant)), st) /\
  Contains (short_name self) (conflict_message (short_name self) constant) /\
  Contains (value_repr constant) (conflict_message (short_name self) constant).
Proof.
  intros [Hdop Hconst] Hgiven Hne. split; [|split].
  - run_method. now rewrite Hdop, Hgiven, Hconst, Hne.
  - unfold conflict_message. occurs.
  - unfold conflict_message. occurs.
Qed.

(** C7: a caller value equal to the constant is accepted, and the bytes are
    those of an encode whose caller supplied nothing for the parameter. *)
Theorem encode_equal_given_same_bytes (self : Self)
    (st : EncodeState ParameterValue) (d : DopBase)
    (constant given : ParameterValue) (bytes : list byte) :
  resolved self d constant ->
  value_ne given constant = false ->
  converter_ignores_parameter_values ->
  fst (get_coded_value_as_bytes self
         (with_parameter_values
            (delete (short_name self) (parameter_values st)) st))
    = Returns bytes ->
  fst (get_coded_value_as_bytes self
         (with_parameter_values
            (<[short_name self := given]> (parameter_values st)) st))
    = Returns bytes.
Proof.
  intros Hres Hne Hconv.
  rewrite (encode_no_conflict self _ d constant Hres).
  2:{ intros g. simpl. now rewrite lookup_delete_eq. }
  rewrite (encode_no_conflict self _ d constant Hres).
  2:{ intros g. simpl. rewrite lookup_insert_eq. now intros [= <-]. }
  now rewrite !Hconv.
Qed.

(** C8: without a conflicting caller value the bytes are those the DOP gives
    for the constant at the parameter's bit position, which is 0 when the
    parameter has none. *)
Theorem encode_converts_constant (self : Self)
    (st : EncodeState ParameterValue) (d : DopBase)
    (constant : ParameterValue) :
  resolved self d constant ->
  (forall given, parameter_values st !! short_name self = Some given ->
                 value_ne given constant = false) ->
  get_coded_value_as_bytes self st =
  convert_physical_to_bytes d constant
    (match bit_position self with Some b => b | None => 0 end) st.
Proof. exact (encode_no_conflict self st d constant). Qed.

(** C9: [get_coded_value_as_bytes] leaves the values the caller supplied as
    they were, whether it returns or raises, as long as the conversion of
    the DOP does. *)
Theorem encode_keeps_parameter_values (self : Self)
    (st : EncodeState ParameterValue) :
  converter_keeps_parameter_values ->
  parameter_values (snd (get_coded_value_as_bytes self st)) =
  parameter_values st.
Proof.
  intros Hkeep. run_method.
  destruct (dop self) as [d|]; [|reflexivity].
  destruct (parameter_values st !! short_name self) as [given|];
    destruct (_physical_constant_value self) as [constant|];
    try reflexivity; simpl.
  - destruct (value_ne given constant); [reflexivity | apply Hkeep].
  - apply Hkeep.
Qed.

(** C10: a constant parameter is neither required nor optional. *)
Theorem not_required_not_optional (self : Self) :
  is_required self = false /\ is_optional self = false.
Proof. split; reflexivity. Qed.

End Encode.

(** ** Decoding *)

Section Decode.

Context {odx : Collaborators}.

Local Abbreviation Self := (PhysicalConstantParameter ParameterValue DopBase).

(** What [warnings.warn] does with a warning, by its disposition; the
    warnings shown before stay. *)
Lemma warn_outcome (ws : Warnings) (module : string) (lineno : Z)
    (text : string) (category : ExceptionClass) :
  match disposition ws module lineno text category with
  | Shown =>
      exists ws2,
        warn module lineno text category ws = (Returns tt, ws2) /\
        shown ws2 = (shown ws ++ [mkException category text])%list
  | Suppressed =>
      exists ws2,
        warn module lineno text category ws = (Returns tt, ws2) /\
        shown ws2 = shown ws
  | Raised =>
      exists ws2,
        warn module lineno text category ws
          = (Raises (mkException category text), ws2) /\
        shown ws2 = shown ws
  end.
Proof.
  assert (Hsync : shown (sync_registry ws) = shown ws).
  { unfold sync_registry.
    destruct (registry_version ws =? filters_version ws); reflexivity. }
  unfold disposition, warn. rewrite <- Hsync.
  set (ws0 := sync_registry ws).
  destruct (bool_decide ((text, category, lineno) ∈ registry ws0)).
  { eexists. split; reflexivity. }
  destruct (action_for ws0 module lineno text category);
    try (eexists; split; reflexivity).
  - cbn [registry add_key].
    destruct
      (bool_decide
         ((text, category, 0) ∈ (text, category, lineno) :: registry ws0));
      eexists; split; reflexivity.
  - cbn [onceregistry add_key].
    destruct (bool_decide ((text, category) ∈ onceregistry ws0));
      eexists; split; reflexivity.
Qed.

(** [decode_from_pdu] after the base decode returned: the warning is
    issued when the value is not the constant, and what [warnings.warn]
    does decides between returning and raising. *)
Lemma decode_after_base (self : Self) (ds : DecodeState)
    (ws ws1 : Warnings) (constant phys_val : ParameterValue) (next : Z) :
  _physical_constant_value self = Some constant ->
  super_decode_from_pdu self ds ws = (Returns (phys_val, next), ws1) ->
  decode_from_pdu self ds ws =
    if value_ne phys_val constant then
      match
        warn warn_module warn_lineno
          (exc_message (mismatch_warning self ds constant phys_val next))
          DecodeError ws1
      with
      | (Returns _, ws2) => (Returns (phys_val, next), ws2)
      | (Raises e, ws2) => (Raises e, ws2)
      end
    else (Returns (phys_val, next), ws1).
Proof.
  intros Hconst Hbase. unfold decode_from_pdu, mismatch_warning.
  unfold physical_constant_value, bind, ret, raise.
  rewrite Hbase, Hconst. cbn [exc_message].
  destruct (value_ne phys_val constant); [|reflexivity].
  destruct (warn _ _ _ _ ws1) as [[[]|e] ws2]; reflexivity.
Qed.

(** The three ways a decoded value that is not the constant can end. *)
Lemma decode_mismatch_outcome (self : Self) (ds : DecodeState)
    (ws ws1 : Warnings) (constant phys_val : ParameterValue) (next : Z) :
  _physical_constant_value self = Some constant ->
  super_decode_from_pdu self ds ws = (Returns (phys_val, next), ws1) ->
  value_ne phys_val constant = true ->
  match mismatch_disposition ws1 self ds constant phys_val next with
  | Shown =>
      exists ws2,
        decode_from_pdu self ds ws = (Returns (phys_val, next), ws2) /\
        shown ws2 =
          (shown ws1 ++ [mismatch_warning self ds constant phys_val next])%list
  | Suppressed =>
      exists ws2,
        decode_from_pdu self ds ws = (Returns (phys_val, next), ws2) /\
        shown ws2 = shown ws1
  | Raised =>
      exists ws2,
        decode_from_pdu self ds ws =
          (Raises (mismatch_warning self ds constant phys_val next), ws2) /\
        shown ws2 = shown ws1
  end.
Proof.
  intros Hconst Hbase Hne.
  rewrite (decode_after_base self ds ws ws1 constant phys_val next
             Hconst Hbase), Hne.
  unfold mismatch_disposition.
  pose proof (warn_outcome ws1 warn_module warn_lineno
                (exc_message (mismatch_warning self ds constant phys_val next))
                DecodeError) as Hwarn.
  cbn [exc_message mismatch_warning] in *.
  destruct (disposition ws1 warn_module warn_lineno _ DecodeError);
    destruct Hwarn as (ws2 & -> & Hshown); exists ws2; split; auto.
Qed.

(** What the text of the warning holds: the short name, the constant, the
    decoded value, the position after the parameter and the message in
    hexadecimal. *)
Lemma mismatch_message_contents (name : string)
    (constant phys_val : ParameterValue) (next : Z) (message : list byte) :
  let text := mismatch_message name constant phys_val next message in
  Contains name text /\ Contains (value_repr constant) text /\
  Contains (value_repr phys_val) text /\ Contains (str_int next) text /\
  Contains (hex message) text.
Proof. unfold mismatch_message. repeat split; occurs. Qed.

(** C2, as amended: when the base decode gives a value that is not the
    constant, [decode_from_pdu] issues one [DecodeError] warning.  Unless
    the warning filters raise it as an exception, [decode_from_pdu]
    returns that value and the base decode's next byte position; exactly
    one warning is shown when the filters show it, and none when they
    ignore it or drop it as a repeat.  When the value is the constant it
    returns the same way and the warnings module is left as it was. *)
Theorem decode_tolerates_mismatch (self : Self) (ds : DecodeState)
    (ws ws1 : Warnings) (constant phys_val : ParameterValue) (next : Z) :
  _physical_constant_value self = Some constant ->
  super_decode_from_pdu self ds ws = (Returns (phys_val, next), ws1) ->
  (value_ne phys_val constant = false ->
   decode_from_pdu self ds ws = (Returns (phys_val, next), ws1)) /\
  (value_ne phys_val constant = true ->
   mismatch_disposition ws1 self ds constant phys_val next = Shown ->
   exists ws2,
     decode_from_pdu self ds ws = (Returns (phys_val, next), ws2) /\
     shown ws2 =
       (shown ws1 ++ [mismatch_warning self ds constant phys_val next])%list)
  /\
  (value_ne phys_val constant = true ->
   mismatch_disposition ws1 self ds constant phys_val next = Suppressed ->
   exists ws2,
     decode_from_pdu self ds ws = (Returns (phys_val, next), ws2) /\
     shown ws2 = shown ws1) /\
  (value_ne phys_val constant = true ->
   mismatch_disposition ws1 self ds constant phys_val next = Raised ->
   exists ws2,
     decode_from_pdu self ds ws =
       (Raises (mismatch_warning self ds constant phys_val next), ws2) /\
     shown ws2 = shown ws1).
Proof.
  intros Hconst Hbase. split.
  { intros Heq.
    rewrite (decode_after_base self ds ws ws1 constant phys_val next
               Hconst Hbase).
    now rewrite Heq. }
  repeat split; intros Hne Hdisp;
    pose proof (decode_mismatch_outcome self ds ws ws1 constant phys_val
                  next Hconst Hbase Hne) as Hout;
    rewrite Hdisp in Hout; exact Hout.
Qed.


End Decode.

(** ** Resolution *)

Section Resolve.

Context {odx : Collaborators}.

Local Abbreviation Self := (PhysicalConstantParameter ParameterValue DopBase).

(** [_resolve_snrefs] after the base class did its part and left [self1]. *)
Lemma resolve_after_base (diag_layer : DiagLayer) (self self1 : Self) :
  super_resolve_snrefs diag_layer self = (Returns tt, self1) ->
  _resolve_snrefs diag_layer self =
  match dop self1 with
  | None => (Raises (mkException OdxError EmptyString), self1)
  | Some d =>
      if isinstance_DataObjectProperty d then
        match physical_type_base_data_type d with
        | Raises e => (Raises e, self1)
        | Returns t =>
            match from_string t (physical_constant_value_raw self1) with
            | Raises e => (Raises e, self1)
            | Returns v => (Returns tt, set_physical_constant_value v self1)
            end
        end
      else
        (Raises (mkException OdxError
           "The type of PHYS-CONST parameters must be a simple DOP"), self1)
  end.
Proof.
  intros Hbase. run_method. rewrite Hbase.
  destruct (dop self1) as [d|]; [|reflexivity].
  destruct (isinstance_DataObjectProperty d); [|reflexivity]. simpl.
  destruct (physical_type_base_data_type d) as [t|e]; [|reflexivity].
  destruct (from_string t (physical_constant_value_raw self1));
    reflexivity.
Qed.

(** C5: when the DOP the parameter refers to is not a
    [DataObjectProperty], [_resolve_snrefs] raises; the constant is not
    assigned. *)
Theorem resolve_rejects_complex_dop (diag_layer : DiagLayer)
    (self self1 : Self) (d : DopBase) :
  super_resolve_snrefs diag_layer self = (Returns tt, self1) ->
  dop self1 = Some d ->
  isinstance_DataObjectProperty d = false ->
  _resolve_snrefs diag_layer self =
    (Raises (mkException OdxError
       "The type of PHYS-CONST parameters must be a simple DOP"), self1).
Proof.
  intros Hbase Hdop Hcomplex.
  rewrite (resolve_after_base diag_layer self self1 Hbase).
  now rewrite Hdop, Hcomplex.
Qed.


End Resolve.

(** ** The scenario, run *)

Section ScenarioFacts.

Import Scenario.

(** The converter of the scenario does not look at the encode state. *)
Lemma scenario_converter_ignores_state (d : ScenarioDop) (v b : Z)
    (st1 st2 : EncodeState Z) :
  fst (scenario_convert_physical_to_bytes d v b st1) =
  fst (scenario_convert_physical_to_bytes d v b st2).
Proof.
  unfold scenario_convert_physical_to_bytes.
  destruct d; [|reflexivity].
  destruct (Byte.of_N (Z.to_N v)); [|reflexivity].
  destruct ((0 <=? v) && (b =? 0)); reflexivity.
Qed.

(** Nor does it change it. *)
Lemma scenario_converter_keeps_state (d : ScenarioDop) (v b : Z)
    (st : EncodeState Z) :
  snd (scenario_convert_physical_to_bytes d v b st) = st.
Proof.
  unfold scenario_convert_physical_to_bytes.
  destruct d; [|reflexivity].
  destruct (Byte.of_N (Z.to_N v)); [|reflexivity].
  destruct ((0 <=? v) && (b =? 0)); reflexivity.
Qed.


(** The conflict error of the scenario does not name the caller's 7. *)
Lemma conflict_error_omits_given :
  ~ conflict_error_names_given (odx := scenario)
      Scenario.p (Scenario.state_with 7).
Proof.
  intros Hclaim.
  destruct (Hclaim UInt8Dop 42 7) as (e & Hraise & _ & _ & _ & Hgiven).
  - split; reflexivity.
  - reflexivity.
  - reflexivity.
  - vm_compute in Hraise. injection Hraise as <-.
    apply Contains_contains in Hgiven. vm_compute in Hgiven. discriminate.
Qed.

Lemma encode_conflict_raises_witness :
  get_coded_value_as_bytes Scenario.p (Scenario.state_with 7) =
    (Raises (mkException TypeError
       "The parameter 'p' is constant 42 and thus can not be changed."),
     Scenario.state_with 7) /\
  Contains "p" "The parameter 'p' is constant 42 and thus can not be changed."
  /\
  Contains "42" "The parameter 'p' is constant 42 and thus can not be changed.".
Proof.
  apply (encode_conflict_raises (odx := scenario)
           Scenario.p (Scenario.state_with 7) UInt8Dop 42 7).
  - split; reflexivity.
  - reflexivity.
  - reflexivity.
Defined.

Lemma encode_equal_given_same_bytes_witness :
  fst (get_coded_value_as_bytes Scenario.p
         (with_parameter_values
            (<["p" := 42]> (parameter_values state_without)) state_without))
    = Returns [x2a].
Proof.
  apply (encode_equal_given_same_bytes (odx := scenario)
           Scenario.p state_without UInt8Dop 42 42 [x2a]).
  - split; reflexivity.
  - reflexivity.
  - intros d v b st pv. apply scenario_converter_ignores_state.
  - reflexivity.
Defined.

Lemma encode_converts_constant_witness :
  get_coded_value_as_bytes Scenario.p (Scenario.state_with 42) =
  scenario_convert_physical_to_bytes UInt8Dop 42 0 (Scenario.state_with 42).
Proof.
  apply (encode_converts_constant (odx := scenario)
           Scenario.p (Scenario.state_with 42) UInt8Dop 42).
  - split; reflexivity.
  - intros given Hgiven. vm_compute in Hgiven.
    injection Hgiven as <-. reflexivity.
Defined.

Lemma encode_keeps_parameter_values_witness :
  parameter_values
    (snd (get_coded_value_as_bytes Scenario.p (Scenario.state_with 7))) =
  parameter_values (Scenario.state_with 7).
Proof.
  apply (encode_keeps_parameter_values (odx := scenario)
           Scenario.p (Scenario.state_with 7)).
  intros d v b st. simpl. now rewrite scenario_converter_keeps_state.
Defined.

(** With [DecodeError] warnings turned into errors, decoding the 7 of the
    scenario raises instead of returning. *)
Lemma decode_raises_under_error_filter :
  ~ decode_tolerant_as_claimed (odx := scenario)
      Scenario.p (message x07) warnings_as_errors.
Proof.
  intros Hclaim.
  destruct (Hclaim 42 7 1 warnings_as_errors eq_refl eq_refl eq_refl)
    as (ws2 & w & Hdecode & _).
  vm_compute in Hdecode. discriminate.
Qed.

Lemma decode_tolerates_mismatch_witness :
  exists ws2,
    decode_from_pdu Scenario.p (message x07) fresh_warnings =
      (Returns (7, 1), ws2) /\
    shown ws2 =
      (shown fresh_warnings ++
       [mismatch_warning (odx := scenario)
          Scenario.p (message x07) 42 7 1])%list.
Proof.
  destruct (decode_tolerates_mismatch (odx := scenario)
              Scenario.p (message x07) fresh_warnings fresh_warnings
              42 7 1 eq_refl eq_refl)
    as (_ & Hshown & _ & _).
  apply Hshown; reflexivity.
Defined.



(** C4: the parameter "p" sits at byte 0 of the one-byte message 07, and
    the warning [decode_from_pdu] emits for it names the parameter, the
    constant 42, the decoded 7 and the message, but gives byte position 1,
    the position after the parameter. *)
Theorem decode_mismatch_reports_next_position :
  byte_position Scenario.p = None /\
  cursor (message x07) = 0 /\
  fst (decode_from_pdu Scenario.p (message x07) fresh_warnings) =
    Returns (7, 1) /\
  shown (snd (decode_from_pdu Scenario.p (message x07) fresh_warnings)) =
    [mkException DecodeError
       ("Physical constant parameter does not match! "
        +:+ "The parameter p expected physical value 42 but got 7 "
        +:+ "at byte position 1 in coded message 07.")].
Proof. repeat split. Qed.


Lemma resolve_rejects_complex_dop_witness :
  _resolve_snrefs layer q_unresolved =
    (Raises (mkException OdxError
       "The type of PHYS-CONST parameters must be a simple DOP"),
     mkParameter "q" None (Some 0) None (Some "struct") (Some StructureDop)
       "42" None).
Proof.
  apply (resolve_rejects_complex_dop (odx := scenario)
           layer q_unresolved _ StructureDop).
  - reflexivity.
  - reflexivity.
  - reflexivity.
Defined.


End ScenarioFacts.

(** ** Further properties of encoding *)

Section EncodeMore.

Context {odx : Collaborators}.

Local Abbreviation Self := (PhysicalConstantParameter ParameterValue DopBase).

(** X1: on a parameter whose DOP is not resolved, or whose constant is not
    assigned yet, [get_coded_value_as_bytes] raises an [OdxError] or an
    [AttributeError] and the encode state stays as it was, whatever the
    caller supplied. *)
Theorem encode_unresolved_raises (self : Self)
    (st : EncodeState ParameterValue) :
  dop self = None \/ _physical_constant_value self = None ->
  exists e,
    get_coded_value_as_bytes self st = (Raises e, st) /\
    (exc_class e = OdxError \/ exc_class e = AttributeError).
Proof.
  intros Hun. run_method.
  destruct (dop self) as [d|].
  - destruct Hun as [Hd|Hc]; [discriminate|]. rewrite Hc.
    destruct (parameter_values st !! short_name self);
      eexists; (split; [reflexivity | right; reflexivity]).
  - eexists. split; [reflexivity | left; reflexivity].
Qed.

(** X2: [get_coded_value_as_bytes] returns bytes only for a resolved
    parameter and only when no value the caller supplied for it differs
    from the constant; the bytes and the encode state are then those of the
    DOP's conversion of the constant. *)
Theorem encode_returns_inversion (self : Self)
    (st st' : EncodeState ParameterValue) (bytes : list byte) :
  get_coded_value_as_bytes self st = (Returns bytes, st') ->
  exists d constant,
    resolved self d constant /\
    (forall given, parameter_values st !! short_name self = Some given ->
                   value_ne given constant = false) /\
    convert_physical_to_bytes d constant (bit_position_int self) st
      = (Returns bytes, st').
Proof.
  run_method.
  destruct (dop self) as [d|]; [|discriminate].
  destruct (_physical_constant_value self) as [constant|].
  - destruct (parameter_values st !! short_name self) as [given|]; simpl.
    + destruct (value_ne given constant) eqn:Hne; [discriminate|].
      intros Hconv. exists d, constant. repeat split; auto.
      now intros g [= <-].
    + intros Hconv. exists d, constant. repeat split; auto. discriminate.
  - destruct (parameter_values st !! short_name self); discriminate.
Qed.

(** X3: when [get_coded_value_as_bytes] raises, either the exception is its
    own - an [OdxError], an [AttributeError] or the [TypeError] of a
    conflict - and the encode state is untouched, or the parameter is
    resolved and the exception and the encode state are those the DOP's
    conversion left. *)
Theorem encode_raises_inversion (self : Self)
    (st st' : EncodeState ParameterValue) (e : PyException) :
  get_coded_value_as_bytes self st = (Raises e, st') ->
  (st' = st /\
   (exc_class e = OdxError \/ exc_class e = AttributeError \/
    exc_class e = TypeError)) \/
  (exists d constant,
     resolved self d constant /\
     convert_physical_to_bytes d constant (bit_position_int self) st
       = (Raises e, st')).
Proof.
  run_method.
  destruct (dop self) as [d|].
  2:{ intros [= <- <-]. left. auto. }
  destruct (_physical_constant_value self) as [constant|].
  - destruct (parameter_values st !! short_name self) as [given|]; simpl.
    + destruct (value_ne given constant).
      * intros [= <- <-]. left. auto.
      * intros Hconv. right. exists d, constant. auto.
    + intros Hconv. right. exists d, constant. auto.
  - destruct (parameter_values st !! short_name self);
      intros [= <- <-]; left; auto.
Qed.

End EncodeMore.

(** ** Further properties of decoding *)

Section DecodeMore.

Context {odx : Collaborators}.

Local Abbreviation Self := (PhysicalConstantParameter ParameterValue DopBase).

(** X4: an exception of the base decode passes through [decode_from_pdu]
    unchanged, and no warning is added to what the base decode left. *)
Theorem decode_base_failure_propagates (self : Self) (ds : DecodeState)
    (ws ws' : Warnings) (e : PyException) :
  super_decode_from_pdu self ds ws = (Raises e, ws') ->
  decode_from_pdu self ds ws = (Raises e, ws').
Proof. intros Hbase. run_method. now rewrite Hbase. Qed.

(** X5: on a parameter whose constant is not assigned yet,
    [decode_from_pdu] raises an [AttributeError] although the base decode
    returned; the value the base decode gave is lost. *)
Theorem decode_unassigned_constant_raises (self : Self) (ds : DecodeState)
    (ws ws' : Warnings) (decoded : ParameterValue * Z) :
  _physical_constant_value self = None ->
  super_decode_from_pdu self ds ws = (Returns decoded, ws') ->
  exists text,
    decode_from_pdu self ds ws =
      (Raises (mkException AttributeError text), ws').
Proof.
  intros Hconst Hbase. run_method. rewrite Hbase, Hconst.
  destruct decoded. eexists. reflexivity.
Qed.

(** X6: when [decode_from_pdu] returns a value and a position, they are
    those of the base decode and the constant was assigned; either the
    value is the constant and the warnings module is as the base decode
    left it, or the mismatch warning was shown, as the one warning added,
    or it was dropped by the filters and none was added. *)
Theorem decode_returns_inversion (self : Self) (ds : DecodeState)
    (ws ws2 : Warnings) (phys_val : ParameterValue) (next : Z) :
  decode_from_pdu self ds ws = (Returns (phys_val, next), ws2) ->
  exists constant ws1,
    _physical_constant_value self = Some constant /\
    super_decode_from_pdu self ds ws = (Returns (phys_val, next), ws1) /\
    ((value_ne phys_val constant = false /\ ws2 = ws1) \/
     (value_ne phys_val constant = true /\
      mismatch_disposition ws1 self ds constant phys_val next = Shown /\
      shown ws2 =
        (shown ws1 ++
         [mismatch_warning self ds constant phys_val next])%list) \/
     (value_ne phys_val constant = true /\
      mismatch_disposition ws1 self ds constant phys_val next = Suppressed /\
      shown ws2 = shown ws1)).
Proof.
  intros Hdec.
  destruct (super_decode_from_pdu self ds ws) as [[[v n]|e] ws1] eqn:Hbase.
  2:{ run_method. rewrite Hbase in Hdec. discriminate. }
  destruct (_physical_constant_value self) as [constant|] eqn:Hconst.
  2:{ run_method. rewrite Hbase, Hconst in Hdec. discriminate. }
  destruct (value_ne v constant) eqn:Hne.
  - pose proof (decode_mismatch_outcome self ds ws ws1 constant v n
                  Hconst Hbase Hne) as Hout.
    destruct (mismatch_disposition ws1 self ds constant v n) eqn:Hdisp;
      destruct Hout as (ws3 & Hdec' & Hshown); rewrite Hdec' in Hdec;
      [injection Hdec as <- <- <- | injection Hdec as <- <- <-
      | discriminate];
      exists constant, ws1; rewrite Hne; repeat split;
      [right; left | right; right]; auto.
  - rewrite (decode_after_base self ds ws ws1 constant v n Hconst Hbase),
      Hne in Hdec.
    injection Hdec as <- <- <-. exists constant, ws1. rewrite Hne.
    repeat split. left. auto.
Qed.

(** X7: whatever happens, [decode_from_pdu] keeps every warning the base
    decode left shown and adds at most one, a [DecodeError]. *)
Theorem decode_log_extends (self : Self) (ds : DecodeState)
    (ws : Warnings) :
  exists emitted,
    shown (snd (decode_from_pdu self ds ws)) =
      (shown (snd (super_decode_from_pdu self ds ws)) ++ emitted)%list /\
    (length emitted <= 1)%nat /\
    Forall (fun w => exc_class w = DecodeError) emitted.
Proof.
  destruct (super_decode_from_pdu self ds ws) as [[[v n]|e] ws1] eqn:Hbase.
  2:{ exists []. run_method. rewrite Hbase. simpl.
      rewrite app_nil_r. auto. }
  destruct (_physical_constant_value self) as [constant|] eqn:Hconst.
  2:{ exists []. run_method. rewrite Hbase, Hconst. simpl.
      rewrite app_nil_r. auto. }
  destruct (value_ne v constant) eqn:Hne.
  - pose proof (decode_mismatch_outcome self ds ws ws1 constant v n
                  Hconst Hbase Hne) as Hout.
    destruct (mismatch_disposition ws1 self ds constant v n);
      destruct Hout as (ws2 & -> & Hshown); cbn [snd]; rewrite Hshown.
    + exists [mismatch_warning self ds constant v n]. repeat split; auto.
    + exists []. rewrite app_nil_r. auto.
    + exists []. rewrite app_nil_r. auto.
  - rewrite (decode_after_base self ds ws ws1 constant v n Hconst Hbase),
      Hne.
    exists []. cbn [snd]. rewrite app_nil_r. auto.
Qed.

(** X8: the warning issued for a decoded value that is not the constant
    has a text that holds the short name, [repr] of the constant, [repr]
    of the decoded value, the byte position the base decode returned and
    the whole message in hexadecimal.  That warning is the one added to
    the warnings shown when the filters show it, and the exception
    [decode_from_pdu] raises when the filters raise it. *)
Theorem decode_warning_contents (self : Self) (ds : DecodeState)
    (ws ws1 : Warnings) (constant phys_val : ParameterValue) (next : Z) :
  _physical_constant_value self = Some constant ->
  super_decode_from_pdu self ds ws = (Returns (phys_val, next), ws1) ->
  value_ne phys_val constant = true ->
  exists text,
    Contains (short_name self) text /\
    Contains (value_repr constant) text /\
    Contains (value_repr phys_val) text /\
    Contains (str_int next) text /\
    Contains (hex (coded_message ds)) text /\
    (disposition ws1 warn_module warn_lineno text DecodeError = Shown ->
     shown (snd (decode_from_pdu self ds ws)) =
       (shown ws1 ++ [mkException DecodeError text])%list) /\
    (disposition ws1 warn_module warn_lineno text DecodeError = Raised ->
     fst (decode_from_pdu self ds ws) =
       Raises (mkException DecodeError text)).
Proof.
  intros Hconst Hbase Hne.
  pose proof (decode_mismatch_outcome self ds ws ws1 constant phys_val next
                Hconst Hbase Hne) as Hout.
  unfold mismatch_disposition, mismatch_warning in Hout.
  destruct (mismatch_message_contents (short_name self) constant phys_val
              next (coded_message ds)) as (Hn & Hc & Hv & Hp & Hm).
  exists (mismatch_message (short_name self) constant phys_val next
            (coded_message ds)).
  repeat split; auto.
  - intros Hdisp. rewrite Hdisp in Hout.
    destruct Hout as (ws2 & -> & Hshown). exact Hshown.
  - intros Hdisp. rewrite Hdisp in Hout.
    destruct Hout as (ws2 & -> & _). reflexivity.
Qed.

End DecodeMore.

(** ** Further properties of resolution *)

Section ResolveMore.

Context {odx : Collaborators}.

Local Abbreviation Self := (PhysicalConstantParameter ParameterValue DopBase).

(** What a returning [_resolve_snrefs] went through. *)
Lemma resolve_returns_inv (diag_layer : DiagLayer) (self self' : Self) :
  _resolve_snrefs diag_layer self = (Returns tt, self') ->
  exists self1 d t v,
    super_resolve_snrefs diag_layer self = (Returns tt, self1) /\
    dop self1 = Some d /\
    isinstance_DataObjectProperty d = true /\
    physical_type_base_data_type d = Returns t /\
    from_string t (physical_constant_value_raw self1) = Returns v /\
    self' = set_physical_constant_value v self1.
Proof.
  destruct (super_resolve_snrefs diag_layer self) as [[[]|e0] self1] eqn:Hbase.
  2:{ run_method. rewrite Hbase. discriminate. }
  rewrite (resolve_after_base diag_layer self self1 Hbase).
  destruct (dop self1) as [d|] eqn:Hdop; [|discriminate].
  destruct (isinstance_DataObjectProperty d) eqn:Hsimple; [|discriminate].
  destruct (physical_type_base_data_type d) as [t|e] eqn:Ht; [|discriminate].
  destruct (from_string t (physical_constant_value_raw self1)) as [v|e]
    eqn:Hparse; [|discriminate].
  intros [= <-]. exists self1, d, t, v. repeat split; auto.
Qed.

(** X9: an exception of the base class's [_resolve_snrefs] passes through
    unchanged; the parameter is left as the base class left it, and nothing
    is parsed or assigned. *)
Theorem resolve_base_failure_propagates (diag_layer : DiagLayer)
    (self self1 : Self) (e : PyException) :
  super_resolve_snrefs diag_layer self = (Raises e, self1) ->
  _resolve_snrefs diag_layer self = (Raises e, self1).
Proof. intros Hbase. run_method. now rewrite Hbase. Qed.

(** X10: when the base class returns but the parameter still has no DOP,
    [_resolve_snrefs] raises an [OdxError], whatever the raw text is, and
    assigns no constant. *)
Theorem resolve_without_dop_raises (diag_layer : DiagLayer)
    (self self1 : Self) :
  super_resolve_snrefs diag_layer self = (Returns tt, self1) ->
  dop self1 = None ->
  exists text,
    _resolve_snrefs diag_layer self =
      (Raises (mkException OdxError text), self1).
Proof.
  intros Hbase Hdop.
  rewrite (resolve_after_base diag_layer self self1 Hbase), Hdop.
  eexists. reflexivity.
Qed.

(** X11: resolution changes nothing but the constant: the short name, the
    positions, the references, the DOP and the raw text of the resolved
    parameter are those the base class left. *)
Theorem resolve_keeps_other_attributes (diag_layer : DiagLayer)
    (self self1 self' : Self) :
  super_resolve_snrefs diag_layer self = (Returns tt, self1) ->
  _resolve_snrefs diag_layer self = (Returns tt, self') ->
  short_name self' = short_name self1 /\
  byte_position self' = byte_position self1 /\
  bit_position self' = bit_position self1 /\
  dop_ref self' = dop_ref self1 /\
  dop_snref self' = dop_snref self1 /\
  dop self' = dop self1 /\
  physical_constant_value_raw self' = physical_constant_value_raw self1.
Proof.
  intros Hbase Hres.
  destruct (resolve_returns_inv diag_layer self self' Hres)
    as (s1 & d & t & v & Hbase' & _ & _ & _ & _ & ->).
  rewrite Hbase in Hbase'. injection Hbase' as <-.
  repeat split.
Qed.

(** X12: a parameter that [_resolve_snrefs] returned for can be encoded:
    without a caller value for it, [get_coded_value_as_bytes] is the
    conversion, by the resolved DOP, of the value [from_string] made of the
    raw text. *)
Theorem resolve_then_encode (diag_layer : DiagLayer) (self self' : Self)
    (st : EncodeState ParameterValue) :
  _resolve_snrefs diag_layer self = (Returns tt, self') ->
  parameter_values st !! short_name self' = None ->
  exists d t v,
    dop self' = Some d /\
    physical_type_base_data_type d = Returns t /\
    from_string t (physical_constant_value_raw self') = Returns v /\
    get_coded_value_as_bytes self' st =
      convert_physical_to_bytes d v (bit_position_int self') st.
Proof.
  intros Hres Hnone.
  destruct (resolve_returns_inv diag_layer self self' Hres)
    as (self1 & d & t & v & _ & Hdop & _ & Ht & Hparse & ->).
  exists d, t, v. repeat split; auto.
  apply encode_no_conflict.
  - split; [exact Hdop | reflexivity].
  - intros given Hgiven. rewrite Hnone in Hgiven. discriminate.
Qed.

(** X13: a parameter that [_resolve_snrefs] returned for can be decoded:
    whenever the base decode returns, [decode_from_pdu] returns the same
    value and position, or raises the [DecodeError] the warning filters
    made of the mismatch warning; it never raises for want of the
    constant. *)
Theorem resolve_then_decode (diag_layer : DiagLayer) (self self' : Self)
    (ds : DecodeState) (ws ws1 : Warnings)
    (phys_val : ParameterValue) (next : Z) :
  _resolve_snrefs diag_layer self = (Returns tt, self') ->
  super_decode_from_pdu self' ds ws = (Returns (phys_val, next), ws1) ->
  (exists ws2,
     decode_from_pdu self' ds ws = (Returns (phys_val, next), ws2)) \/
  (exists text ws2,
     decode_from_pdu self' ds ws =
       (Raises (mkException DecodeError text), ws2)).
Proof.
  intros Hres Hbase.
  destruct (resolve_returns_inv diag_layer self self' Hres)
    as (self1 & d & t & v & _ & _ & _ & _ & _ & ->).
  set (self' := set_physical_constant_value v self1) in *.
  assert (Hconst : _physical_constant_value self' = Some v) by reflexivity.
  destruct (value_ne phys_val v) eqn:Hne.
  - pose proof (decode_mismatch_outcome self' ds ws ws1 v phys_val next
                  Hconst Hbase Hne) as Hout.
    destruct (mismatch_disposition ws1 self' ds v phys_val next);
      destruct Hout as (ws2 & Hdec & _).
    + left. eauto.
    + left. eauto.
    + right. unfold mismatch_warning in Hdec. eauto.
  - left. exists ws1.
    rewrite (decode_after_base self' ds ws ws1 v phys_val next Hconst Hbase).
    now rewrite Hne.
Qed.

(** X14: resolving again is harmless: when the base class leaves a
    resolved parameter as it is, a second [_resolve_snrefs] returns and
    leaves it as it is, with the same constant. *)
Theorem resolve_again_is_identity (diag_layer : DiagLayer)
    (self self' : Self) :
  _resolve_snrefs diag_layer self = (Returns tt, self') ->
  super_resolve_snrefs diag_layer self' = (Returns tt, self') ->
  _resolve_snrefs diag_layer self' = (Returns tt, self').
Proof.
  intros Hres Hbase2.
  destruct (resolve_returns_inv diag_layer self self' Hres)
    as (self1 & d & t & v & _ & Hdop & Hsimple & Ht & Hparse & ->).
  rewrite (resolve_after_base diag_layer _ _ Hbase2). simpl.
  now rewrite Hdop, Hsimple, Ht, Hparse.
Qed.

End ResolveMore.

(** ** Splitting at whitespace and joining with blanks *)

Arguments isspace : simpl never.

Lemma isspace_blank : isspace " " = true.
Proof. reflexivity. Qed.

Lemma append_nil_r (s : string) : s +:+ EmptyString = s.
Proof.
  induction s as [|c s IH]; [reflexivity|].
  rewrite append_cons. now f_equal.
Qed.

Lemma Contains_self (part : string) : Contains part part.
Proof. exists EmptyString, EmptyString. now rewrite append_nil_r. Qed.

Lemma Contains_keep (part whole after : string) :
  Contains part whole -> Contains part (whole +:+ after).
Proof.
  intros (a & b & ->). exists a, (b +:+ after).
  now rewrite !append_assoc3.
Qed.

Lemma chars_append (a b : string) :
  list_ascii_of_string (a +:+ b) =
  (list_ascii_of_string a ++ list_ascii_of_string b)%list.
Proof.
  induction a as [|c a IH]; [reflexivity|].
  rewrite append_cons. simpl. now f_equal.
Qed.

Lemma letters_append (a b : string) :
  letters (a +:+ b) = (letters a ++ letters b)%list.
Proof. unfold letters. now rewrite chars_append, List.filter_app. Qed.

Lemma letters_space (c : ascii) (s : string) :
  isspace c = true -> letters (String c s) = letters s.
Proof. intros Hc. unfold letters. simpl. now rewrite Hc. Qed.

Lemma letters_letter (c : ascii) (s : string) :
  isspace c = false -> letters (String c s) = c :: letters s.
Proof. intros Hc. unfold letters. simpl. now rewrite Hc. Qed.

Lemma str_split_space (c : ascii) (s : string) :
  isspace c = true -> str_split (String c s) = str_split s.
Proof. intros Hc. simpl. now rewrite Hc. Qed.

Lemma str_split_letter (c : ascii) (s : string) :
  isspace c = false ->
  str_split (String c s) =
  match s with
  | EmptyString => [String c EmptyString]
  | String c' _ =>
      if isspace c' then String c EmptyString :: str_split s
      else
        match str_split s with
        | w :: ws => String c w :: ws
        | [] => [String c EmptyString]
        end
  end.
Proof. intros Hc. destruct s; simpl; now rewrite Hc. Qed.

Lemma is_word_single (c : ascii) :
  isspace c = false -> is_word (String c EmptyString).
Proof. intros Hc. split; [discriminate|]. simpl. auto. Qed.

Lemma is_word_cons (c : ascii) (w : string) :
  isspace c = false -> is_word w -> is_word (String c w).
Proof.
  intros Hc [_ Hw]. split; [discriminate|]. simpl. now constructor.
Qed.

(** Every piece [str_split] gives is a word. *)
Lemma str_split_words (s : string) : Forall is_word (str_split s).
Proof.
  induction s as [|c rest IH]; [constructor|].
  destruct (isspace c) eqn:Hc.
  - now rewrite str_split_space.
  - rewrite (str_split_letter c rest Hc).
    destruct rest as [|c' r].
    + constructor; [now apply is_word_single | constructor].
    + destruct (isspace c').
      * constructor; [now apply is_word_single | exact IH].
      * destruct (str_split (String c' r)) as [|w ws].
        -- constructor; [now apply is_word_single | constructor].
        -- inversion IH as [|? ? Hw Hws]; subst.
           constructor; [now apply is_word_cons | exact Hws].
Qed.

(** The pieces hold the letters of the text, in order. *)
Lemma str_split_letters (s : string) :
  flat_map letters (str_split s) = letters s.
Proof.
  induction s as [|c rest IH]; [reflexivity|].
  destruct (isspace c) eqn:Hc.
  - now rewrite str_split_space, letters_space.
  - rewrite (str_split_letter c rest Hc), (letters_letter c rest Hc).
    destruct rest as [|c' r].
    + simpl. now rewrite (letters_letter c _ Hc).
    + destruct (isspace c').
      * cbn [flat_map]. rewrite IH. now rewrite (letters_letter c _ Hc).
      * destruct (str_split (String c' r)) as [|w ws].
        -- cbn [flat_map] in *. rewrite <- IH.
           now rewrite (letters_letter c _ Hc).
        -- cbn [flat_map] in *. rewrite <- IH.
           now rewrite (letters_letter c _ Hc).
Qed.

Lemma concat_cons2 (sep w w2 : string) (ws : list string) :
  String.concat sep (w :: w2 :: ws) =
  w +:+ sep +:+ String.concat sep (w2 :: ws).
Proof. reflexivity. Qed.

Lemma letters_concat (ws : list string) :
  letters (String.concat " " ws) = flat_map letters ws.
Proof.
  induction ws as [|w ws IH]; [reflexivity|].
  destruct ws as [|w2 ws].
  - simpl. now rewrite app_nil_r.
  - rewrite concat_cons2, !letters_append, IH. reflexivity.
Qed.

Lemma spaced_after_word (w t : string) (b : bool) :
  is_word w ->
  single_spaced_from b (w +:+ t) = single_spaced_from false t.
Proof.
  intros [Hne Hw]. revert b.
  induction w as [|c w IH]; intros b; [now elim Hne|].
  inversion Hw as [|? ? Hc Hw']; subst.
  rewrite append_cons. simpl. rewrite Hc.
  destruct w as [|c2 w2]; [reflexivity|].
  apply IH; [discriminate | exact Hw'].
Qed.

Lemma spaced_concat (ws : list string) :
  Forall is_word ws -> ws <> [] ->
  single_spaced_from true (String.concat " " ws) = true.
Proof.
  induction ws as [|w ws IH]; intros Hws Hne; [now elim Hne|].
  inversion Hws as [|? ? Hw Hws']; subst.
  destruct ws as [|w2 ws].
  - simpl. rewrite <- (append_nil_r w). now rewrite spaced_after_word.
  - rewrite concat_cons2, (spaced_after_word w _ true Hw).
    change (" " +:+ String.concat " " (w2 :: ws))
      with (String " " (String.concat " " (w2 :: ws))).
    cbn [single_spaced_from]. rewrite isspace_blank.
    rewrite (IH Hws') by discriminate. reflexivity.
Qed.

Lemma str_split_after_word (w t : string) :
  is_word w ->
  match t with
  | EmptyString => True
  | String c _ => isspace c = true
  end ->
  str_split (w +:+ t) = w :: str_split t.
Proof.
  intros [Hne Hw] Ht.
  induction w as [|c w IH]; [now elim Hne|].
  inversion Hw as [|? ? Hc Hw']; subst.
  rewrite append_cons, (str_split_letter c _ Hc).
  destruct w as [|c2 w2].
  - change (EmptyString +:+ t) with t.
    destruct t as [|c1 r]; [reflexivity|]. now rewrite Ht.
  - inversion Hw' as [|? ? Hc2 _]; subst.
    rewrite append_cons, Hc2, <- append_cons.
    rewrite IH; [reflexivity | discriminate | exact Hw'].
Qed.

Lemma str_split_concat (ws : list string) :
  Forall is_word ws -> str_split (String.concat " " ws) = ws.
Proof.
  induction ws as [|w ws IH]; intros Hws; [reflexivity|].
  inversion Hws as [|? ? Hw Hws']; subst.
  destruct ws as [|w2 ws].
  - simpl. rewrite <- (append_nil_r w) at 1.
    now rewrite str_split_after_word.
  - rewrite concat_cons2, str_split_after_word; [|exact Hw|reflexivity].
    change (" " +:+ String.concat " " (w2 :: ws))
      with (String " " (String.concat " " (w2 :: ws))).
    rewrite str_split_space by reflexivity. now rewrite IH.
Qed.

(** X19: the description as [__repr__] shows it is spaced by single blanks:
    it holds no tab, newline or other whitespace but the blank, it neither
    starts nor ends with a blank, and no two blanks follow each other. *)
Theorem joined_description_single_spaced (description : string) :
  single_spaced (joined_description description) = true.
Proof.
  unfold joined_description.
  pose proof (str_split_words description) as Hws.
  destruct (str_split description) as [|w ws] eqn:E; [reflexivity|].
  pose proof (spaced_concat (w :: ws) Hws) as Hsp.
  destruct (String.concat " " (w :: ws)); [reflexivity|].
  apply Hsp. discriminate.
Qed.

(** X20: joining the pieces of a text that is already split and joined
    gives the same text. *)
Theorem joined_description_idempotent (description : string) :
  joined_description (joined_description description) =
  joined_description description.
Proof.
  unfold joined_description.
  now rewrite str_split_concat by apply str_split_words.
Qed.

(** X21: the description as [__repr__] shows it has the characters of the
    description that are not whitespace, all of them and in their order. *)
Theorem joined_description_keeps_letters (description : string) :
  letters (joined_description description) = letters description.
Proof.
  unfold joined_description.
  now rewrite letters_concat, str_split_letters.
Qed.

(** X22: the description is shown as the empty text exactly when it holds
    nothing but whitespace. *)
Theorem joined_description_empty_iff (description : string) :
  joined_description description = EmptyString <->
  letters description = [].
Proof.
  split.
  - intros Hempty. rewrite <- joined_description_keeps_letters.
    now rewrite Hempty.
  - intros Hblank. unfold joined_description.
    pose proof (str_split_words description) as Hws.
    pose proof (str_split_letters description) as Hl.
    rewrite Hblank in Hl.
    destruct (str_split description) as [|w ws]; [reflexivity|].
    inversion Hws as [|? ? [Hne Hw] _]; subst.
    destruct w as [|c w]; [now elim Hne|].
    inversion Hw as [|? ? Hc _]; subst.
    cbn [flat_map] in Hl. rewrite (letters_letter c w Hc) in Hl.
    discriminate.
Qed.

(** ** [get_coded_value] and [__repr__] *)

Section RenderingFacts.

Context {odx : Collaborators}.

Local Abbreviation Self := (PhysicalConstantParameter ParameterValue DopBase).

Variable InternalValue : Type.
Variable convert_physical_to_internal :
  DopBase -> ParameterValue -> Outcome InternalValue.
Variable repr_str : string -> string.
Variable repr_OdxLinkRef : string -> string.

Lemma starts_keep (start whole more : string) :
  (exists rest, whole = start +:+ rest) ->
  exists rest, whole +:+ more = start +:+ rest.
Proof.
  intros [rest ->]. exists (rest +:+ more). apply append_assoc3.
Qed.

Lemma starts_self (start : string) : exists rest, start = start +:+ rest.
Proof. exists EmptyString. now rewrite append_nil_r. Qed.

Ltac shown :=
  first [ apply Contains_skip; apply Contains_self
        | apply Contains_keep; shown ].

(** X15: on a parameter whose DOP is not resolved, or whose constant is
    not assigned yet, [get_coded_value] raises an [AttributeError] and the
    DOP's conversion is not reached. *)
Theorem get_coded_value_unresolved_raises {S : Type} (self : Self) (s : S) :
  dop self = None \/ _physical_constant_value self = None ->
  exists text,
    get_coded_value InternalValue convert_physical_to_internal self s =
      (Raises (mkException AttributeError text), s).
Proof.
  intros Hun. unfold get_coded_value. run_method.
  destruct (dop self) as [d|].
  - destruct Hun as [Hd|Hc]; [discriminate|]. rewrite Hc.
    eexists. reflexivity.
  - eexists. reflexivity.
Qed.

(** X16: [__repr__] of a parameter whose constant is not assigned yet
    raises an [AttributeError]: an unresolved parameter has no text. *)
Theorem repr_unassigned_constant_raises {S : Type} (self : Self)
    (more : DescriptiveAttributes) (s : S) :
  _physical_constant_value self = None ->
  exists text,
    __repr__ repr_str repr_OdxLinkRef self more s =
      (Raises (mkException AttributeError text), s).
Proof.
  intros Hc. unfold __repr__. run_method. rewrite Hc.
  eexists. reflexivity.
Qed.

(** X17: [__repr__] of a parameter with its constant returns a text that
    starts with the class name, the short name and [repr] of the constant,
    and ends with the closing bracket. *)
Theorem repr_frame {S : Type} (self : Self) (more : DescriptiveAttributes)
    (constant : ParameterValue) (s : S) :
  _physical_constant_value self = Some constant ->
  exists middle,
    __repr__ repr_str repr_OdxLinkRef self more s =
      (Returns
         (("PhysicalConstantParameter(short_name='" +:+ short_name self
           +:+ "', physical_constant_value=" +:+ value_repr constant)
          +:+ middle +:+ ")"), s).
Proof.
  intros Hc. unfold __repr__. run_method. rewrite Hc.
  match goal with
  | |- exists m, (Returns (?t +:+ ")"), s) = (Returns (?p +:+ m +:+ _), s) =>
      assert (Hstart : exists rest, t = p +:+ rest)
  end.
  { destruct (long_name more), (byte_position self), (bit_position self),
      (semantic more), (dop_ref self), (dop_snref self), (description more);
      repeat first [apply starts_self | apply starts_keep]. }
  destruct Hstart as [rest ->]. exists rest.
  now rewrite append_assoc3.
Qed.

(** X18: every attribute that is present is shown: the long name, the byte
    and bit positions, the semantic, the reference to the DOP - by id, and
    by short name when there is no reference by id - and the description,
    split at whitespace and joined with blanks. *)
Theorem repr_shows_present_attributes {S : Type} (self : Self)
    (more : DescriptiveAttributes) (constant : ParameterValue) (s : S) :
  _physical_constant_value self = Some constant ->
  exists text,
    __repr__ repr_str repr_OdxLinkRef self more s = (Returns text, s) /\
    (forall n, long_name more = Some n ->
       Contains (", long_name='" +:+ n +:+ "'") text) /\
    (forall b, byte_position self = Some b ->
       Contains (", byte_position='" +:+ str_int b +:+ "'") text) /\
    (forall b, bit_position self = Some b ->
       Contains (", bit_position='" +:+ str_int b +:+ "'") text) /\
    (forall sem, semantic more = Some sem ->
       Contains (", semantic='" +:+ sem +:+ "'") text) /\
    (forall ref, dop_ref self = Some ref ->
       Contains (", dop_ref=" +:+ repr_OdxLinkRef ref) text) /\
    (forall snref, dop_ref self = None -> dop_snref self = Some snref ->
       Contains (", dop_snref=" +:+ repr_str snref) text) /\
    (forall d, description more = Some d ->
       Contains (", description='" +:+ joined_description d +:+ "'") text).
Proof.
  intros Hc. unfold __repr__. run_method. rewrite Hc.
  eexists. split; [reflexivity|].
  destruct (long_name more), (byte_position self), (bit_position self),
    (semantic more), (dop_ref self), (dop_snref self), (description more);
    repeat split; intros; try discriminate;
    repeat match goal with H : Some _ = Some _ |- _ =>
             injection H as <- end;
    shown.
Qed.

End RenderingFacts.

(** ** The message in hexadecimal *)

Lemma unhex_hex_byte (x : byte) :
  unhex_digit (hex_digit (Byte.to_N x / 16)) = Some (Byte.to_N x / 16)%N /\
  unhex_digit (hex_digit (Byte.to_N x mod 16)) = Some (Byte.to_N x mod 16)%N
  /\
  Byte.of_N (16 * (Byte.to_N x / 16) + Byte.to_N x mod 16) = Some x.
Proof. destruct x; repeat split. Qed.

(** X23: the hexadecimal text of a message, as the warning shows it, gives
    the message back: no byte is lost or changed. *)
Theorem unhex_hex (message : list byte) : unhex (hex message) = Some message.
Proof.
  induction message as [|x message IH]; [reflexivity|].
  destruct (unhex_hex_byte x) as (Hhi & Hlo & Hx).
  cbn [hex unhex]. now rewrite Hhi, Hlo, IH, Hx.
Qed.

(** ** The further properties, run on the scenario *)

Section ScenarioMore.

Import Scenario.

Lemma encode_unresolved_raises_witness :
  exists e,
    get_coded_value_as_bytes p_unresolved (state_with 7) =
      (Raises e, state_with 7) /\
    (exc_class e = OdxError \/ exc_class e = AttributeError).
Proof.
  apply (encode_unresolved_raises (odx := scenario)
           p_unresolved (state_with 7)).
  left. reflexivity.
Defined.

Lemma encode_returns_inversion_witness :
  exists d constant,
    resolved (odx := scenario) Scenario.p d constant /\
    (forall given,
       parameter_values state_without !! short_name Scenario.p = Some given ->
       value_ne given constant = false) /\
    convert_physical_to_bytes d constant (bit_position_int Scenario.p)
      state_without = (Returns [x2a], state_without).
Proof.
  apply (encode_returns_inversion (odx := scenario)
           Scenario.p state_without state_without [x2a]).
  reflexivity.
Defined.

Lemma encode_raises_inversion_witness :
  (state_with 7 = state_with 7 /\
   (exc_class
      (mkException TypeError
        "The parameter 'p' is constant 42 and thus can not be changed.") = OdxError \/
    exc_class
      (mkException TypeError
        "The parameter 'p' is constant 42 and thus can not be changed.") = AttributeError \/
    exc_class
      (mkException TypeError
        "The parameter 'p' is constant 42 and thus can not be changed.") = TypeError)) \/
  (exists d constant,
     resolved (odx := scenario) Scenario.p d constant /\
     convert_physical_to_bytes d constant (bit_position_int Scenario.p)
       (state_with 7) =
     (Raises
      (mkException TypeError
        "The parameter 'p' is constant 42 and thus can not be changed."), state_with 7)).
Proof.
  apply (encode_raises_inversion (odx := scenario)
           Scenario.p (state_with 7) (state_with 7)).
  reflexivity.
Defined.

Lemma decode_base_failure_propagates_witness :
  decode_from_pdu Scenario.p (mkDecodeState [] 0) fresh_warnings =
    (Raises (mkException DecodeError "message too short"), fresh_warnings).
Proof.
  apply (decode_base_failure_propagates (odx := scenario)
           Scenario.p (mkDecodeState [] 0) fresh_warnings fresh_warnings).
  reflexivity.
Defined.

Lemma decode_unassigned_constant_raises_witness :
  exists text,
    decode_from_pdu p_unresolved (message x07) fresh_warnings =
      (Raises (mkException AttributeError text), fresh_warnings).
Proof.
  apply (decode_unassigned_constant_raises (odx := scenario)
           p_unresolved (message x07) fresh_warnings fresh_warnings (7, 1)).
  - reflexivity.
  - reflexivity.
Defined.

Lemma decode_returns_inversion_witness :
  exists constant ws1,
    _physical_constant_value Scenario.p = Some constant /\
    super_decode_from_pdu Scenario.p (message x07) warnings_ignored
      = (Returns (7, 1), ws1) /\
    ((value_ne 7 constant = false /\ sync_registry warnings_ignored = ws1) \/
     (value_ne 7 constant = true /\
      mismatch_disposition ws1 Scenario.p (message x07) constant 7 1
        = Shown /\
      shown (sync_registry warnings_ignored) =
        (shown ws1 ++
         [mismatch_warning Scenario.p (message x07) constant 7 1])%list) \/
     (value_ne 7 constant = true /\
      mismatch_disposition ws1 Scenario.p (message x07) constant 7 1
        = Suppressed /\
      shown (sync_registry warnings_ignored) = shown ws1)).
Proof.
  apply (decode_returns_inversion (odx := scenario)
           Scenario.p (message x07) warnings_ignored).
  reflexivity.
Defined.

Lemma decode_warning_contents_witness :
  exists text,
    Contains "p" text /\ Contains "42" text /\ Contains "7" text /\
    Contains "1" text /\ Contains "07" text /\
    (disposition fresh_warnings warn_module warn_lineno text DecodeError
       = Shown ->
     shown (snd (decode_from_pdu Scenario.p (message x07) fresh_warnings)) =
       (shown fresh_warnings ++ [mkException DecodeError text])%list) /\
    (disposition fresh_warnings warn_module warn_lineno text DecodeError
       = Raised ->
     fst (decode_from_pdu Scenario.p (message x07) fresh_warnings) =
       Raises (mkException DecodeError text)).
Proof.
  apply (decode_warning_contents (odx := scenario)
           Scenario.p (message x07) fresh_warnings fresh_warnings 42 7 1).
  - reflexivity.
  - reflexivity.
  - reflexivity.
Defined.

Lemma resolve_base_failure_propagates_witness :
  _resolve_snrefs layer
    (mkParameter "r" None None None (Some "nope") None "42" None) =
    (Raises (mkException OdxError EmptyString),
     mkParameter "r" None None None (Some "nope") None "42" None).
Proof.
  apply (resolve_base_failure_propagates (odx := scenario) layer).
  reflexivity.
Defined.

Lemma resolve_without_dop_raises_witness :
  exists text,
    _resolve_snrefs layer
      (mkParameter "r" None None None None None "42" None) =
      (Raises (mkException OdxError text),
       mkParameter "r" None None None None None "42" None).
Proof.
  apply (resolve_without_dop_raises (odx := scenario) layer).
  - reflexivity.
  - reflexivity.
Defined.

Lemma resolve_keeps_other_attributes_witness :
  short_name Scenario.p = "p" /\
  byte_position Scenario.p = None /\
  bit_position Scenario.p = Some 0 /\
  dop_ref Scenario.p = None /\
  dop_snref Scenario.p = Some "dop" /\
  dop Scenario.p = Some UInt8Dop /\
  physical_constant_value_raw Scenario.p = "42".
Proof.
  apply (resolve_keeps_other_attributes (odx := scenario) layer
           p_unresolved
           (mkParameter "p" None (Some 0) None (Some "dop") (Some UInt8Dop)
              "42" None)
           Scenario.p).
  - reflexivity.
  - reflexivity.
Defined.

Lemma resolve_then_encode_witness :
  exists d t v,
    dop Scenario.p = Some d /\
    physical_type_base_data_type d = Returns t /\
    from_string t (physical_constant_value_raw Scenario.p) = Returns v /\
    get_coded_value_as_bytes Scenario.p state_without =
      convert_physical_to_bytes d v (bit_position_int Scenario.p)
        state_without.
Proof.
  apply (resolve_then_encode (odx := scenario) layer p_unresolved
           Scenario.p state_without).
  - reflexivity.
  - reflexivity.
Defined.

Lemma resolve_then_decode_witness :
  (exists ws2,
     decode_from_pdu Scenario.p (message x07) warnings_as_errors =
       (Returns (7, 1), ws2)) \/
  (exists text ws2,
     decode_from_pdu Scenario.p (message x07) warnings_as_errors =
       (Raises (mkException DecodeError text), ws2)).
Proof.
  apply (resolve_then_decode (odx := scenario) layer p_unresolved
           Scenario.p (message x07) warnings_as_errors warnings_as_errors
           7 1).
  - reflexivity.
  - reflexivity.
Defined.

Lemma resolve_again_is_identity_witness :
  _resolve_snrefs layer Scenario.p = (Returns tt, Scenario.p).
Proof.
  apply (resolve_again_is_identity (odx := scenario) layer p_unresolved
           Scenario.p).
  - reflexivity.
  - reflexivity.
Defined.

Lemma get_coded_value_unresolved_raises_witness :
  exists text,
    get_coded_value (odx := scenario) Z (fun _ v => Returns v)
      p_unresolved tt =
      (Raises (mkException AttributeError text), tt).
Proof.
  apply (get_coded_value_unresolved_raises (odx := scenario) Z
           (fun _ v => Returns v) p_unresolved tt).
  left. reflexivity.
Defined.

Lemma repr_unassigned_constant_raises_witness :
  exists text,
    __repr__ (odx := scenario) quoted quoted p_unresolved
      (mkDescriptive None None None) tt =
      (Raises (mkException AttributeError text), tt).
Proof.
  apply (repr_unassigned_constant_raises (odx := scenario) quoted quoted
           p_unresolved (mkDescriptive None None None) tt).
  reflexivity.
Defined.

Lemma repr_frame_witness :
  exists middle,
    __repr__ (odx := scenario) quoted quoted Scenario.p
      (mkDescriptive (Some "P") None (Some " a   b ")) tt =
      (Returns
         (("PhysicalConstantParameter(short_name='" +:+ "p"
           +:+ "', physical_constant_value=" +:+ "42")
          +:+ middle +:+ ")"), tt).
Proof.
  apply (repr_frame (odx := scenario) quoted quoted Scenario.p
           (mkDescriptive (Some "P") None (Some " a   b ")) 42 tt).
  reflexivity.
Defined.

Lemma repr_shows_present_attributes_witness :
  exists text,
    __repr__ (odx := scenario) quoted quoted Scenario.p
      (mkDescriptive (Some "P") None (Some " a   b ")) tt
      = (Returns text, tt) /\
    Contains ", long_name='P'" text /\
    Contains ", bit_position='0'" text /\
    Contains ", dop_snref='dop'" text /\
    Contains ", description='a b'" text.
Proof.
  destruct (repr_shows_present_attributes (odx := scenario) quoted quoted
              Scenario.p (mkDescriptive (Some "P") None (Some " a   b "))
              42 tt eq_refl)
    as (text & Htext & Hlong & _ & Hbit & _ & _ & Hsnref & Hdescr).
  exists text. split; [exact Htext|].
  split; [exact (Hlong "P" eq_refl)|].
  split; [exact (Hbit 0 eq_refl)|].
  split; [exact (Hsnref "dop" eq_refl eq_refl)|].
  exact (Hdescr " a   b " eq_refl).
Defined.

End ScenarioMore.
